(** * SyncVeil: the Express authentication handlers and their flat-file store

    A shallow embedding of the two revisions of the Node server kept in the
    repository:

    - [V1]: [Syncveil/server.js] together with the fault-tolerant store
      [Syncveil/simpleStore-DESKTOP-N9FJDQI.js];
    - [V2]: the later revision (store and server in one listing) whose
      handlers are wrapped in [try]/[catch], which logs the user in right
      after signup and which guards [/api/me].

    Handlers are functions in a small state-and-exception monad over the
    [world] they can touch: the [users.json] file and the caller's session. *)

From Stdlib Require Import Ascii String.
From stdpp Require Import gmap strings list.

(** ** JavaScript values *)

(** What [JSON.parse] can produce for a property.  Numbers are taken to be
    integers: the handlers only test them for equality and truthiness.  Arrays
    and objects nested inside a record are kept as their text: the handlers
    only ever compare them with [===] (never equal, they are distinct
    references) or hand them to bcrypt (which rejects them). *)
Inductive json :=
  | JNull
  | JBool (b : bool)
  | JNum (n : Z)
  | JStr (s : string)
  | JNested (text : string).

(** A JavaScript value read from a property: [None] is [undefined]. *)
Definition value := option json.
Definition undefined : value := None.
Definition str (s : string) : value := Some (JStr s).

(** A plain object as parsed from JSON: no property holds [undefined], a
    missing property reads as [undefined]. *)
Abbreviation object := (gmap string json).

(** [a === b] *)
Definition strict_eq (a b : value) : bool :=
  match a, b with
  | None, None => true
  | Some JNull, Some JNull => true
  | Some (JBool x), Some (JBool y) => bool_decide (x = y)
  | Some (JNum x), Some (JNum y) => bool_decide (x = y)
  | Some (JStr x), Some (JStr y) => bool_decide (x = y)
  | _, _ => false
  end.

(** [!!v] *)
Definition truthy (v : value) : bool :=
  match v with
  | None | Some JNull => false
  | Some (JBool b) => b
  | Some (JNum n) => negb (bool_decide (n = 0%Z))
  | Some (JStr s) => negb (bool_decide (s = ""))
  | Some (JNested _) => true
  end.

(** [{ ..., k: v, ... }] as it reaches the file: [JSON.stringify] leaves out
    the properties whose value is [undefined]. *)
Definition prop (k : string) (v : value) (o : object) : object :=
  match v with
  | Some j => <[k:=j]> o
  | None => o
  end.

(** ** Exceptions *)

Inductive result (A : Type) :=
  | Ok (a : A)
  | Throw.
Arguments Ok {A} a.
Arguments Throw {A}.

(** ** The file [data/users.json] *)

(** The contents the handlers tell apart.  (A file holding JSON that is not an
    array of records lies outside this model.) *)
Inductive text :=
  | Blank                          (* the empty string *)
  | Malformed                      (* not JSON *)
  | UserArray (users : list object). (* a JSON array of user records *)

(** [None]: the file is gone.  (Both store modules create it, holding [[]],
    when it is absent at start-up.)  A path that is there but cannot be opened
    (a directory, a file without permissions) and a disk that refuses a write
    lie outside this model. *)
Definition file := option text.

Definition readFileSync (f : file) : result text :=
  match f with
  | Some data => Ok data
  | None => Throw
  end.

(** [data || '[]'] *)
Definition or_empty_array (data : text) : text :=
  match data with
  | Blank => UserArray []
  | _ => data
  end.

Definition JSON_parse (data : text) : result (list object) :=
  match data with
  | UserArray users => Ok users
  | Blank | Malformed => Throw
  end.

(** [fs.writeFileSync(file, JSON.stringify(arr, null, 2))], over the file
    states above: it replaces the contents of a file that is there and creates
    one that is gone. *)
Definition writeFileSync (arr : list object) (f : file) : file :=
  Some (UserArray arr).

(** ** The session of the caller (express-session) *)

Record session_data := { userId : value }.

(** [None]: the session store holds no record for the caller's cookie (never
    saved, expired or destroyed); the request then sees a fresh session. *)
Definition session_state := option session_data.

Definition fresh_session : session_data := {| userId := undefined |}.

Record world := { fs : file; session : session_state }.

(** ** Responses *)

Inductive body :=
  | Error (error : string)     (* { error: ... } *)
  | Success                    (* { success: true } *)
  | User (info : object).      (* { user: info } *)

Record response := { status : nat; json_body : body }.

(** ** The monad of a request handler: state survives an exception *)

(** A handler that ends in [Throw] has let the exception escape; what Express
    then does with the request is not code of this repository. *)
Definition M (A : Type) := world -> result A * world.

Definition ret {A} (a : A) : M A := fun w => (Ok a, w).

Definition bind {A B} (m : M A) (k : A -> M B) : M B :=
  fun w =>
    match m w with
    | (Ok a, w') => k a w'
    | (Throw, w') => (Throw, w')
    end.

Definition lift {A} (r : result A) : M A := fun w => (r, w).

(** [try { m } catch (e) { h }] *)
Definition try_catch {A} (m : M A) (h : M A) : M A :=
  fun w =>
    match m w with
    | (Ok a, w') => (Ok a, w')
    | (Throw, w') => h w'
    end.

Notation "x <- m ;; k" := (bind m (fun x => k))
  (at level 100, m at next level, right associativity).
Notation "m ;;; k" := (bind m (fun _ => k))
  (at level 100, right associativity).

(** [res.status(s).json(b)]; [res.json(b)] answers with status 200. *)
Definition res_status_json (s : nat) (b : body) : M response :=
  ret {| status := s; json_body := b |}.
Definition res_json (b : body) : M response := res_status_json 200 b.

(** [req.session.userId] *)
Definition req_session_userId : M value :=
  fun w => (Ok (userId (default fresh_session (session w))), w).

(** [req.session.userId = v] *)
Definition set_session_userId (v : value) : M unit :=
  fun w => (Ok tt, {| fs := fs w; session := Some {| userId := v |} |}).

(** [req.session.destroy()] *)
Definition session_destroy : M unit :=
  fun w => (Ok tt, {| fs := fs w; session := None |}).

(** ** bcrypt, the hashing library the handlers call *)

Class Bcrypt := {
  (** the hash of [data] under a freshly drawn [salt] *)
  bcrypt_hash : string -> string -> string;
  (** [bcrypt_compare data encrypted] *)
  bcrypt_compare : string -> string -> bool
}.

Section Hashing.
Context `{Bcrypt}.

(** [await bcrypt.hash(password, 10)]: rejects unless [password] is a string. *)
Definition hash (salt : string) (password : value) : result string :=
  match password with
  | Some (JStr p) => Ok (bcrypt_hash salt p)
  | _ => Throw
  end.

(** [await bcrypt.compare(password, password_hash)]: rejects unless both are
    strings. *)
Definition compare (password password_hash : value) : result bool :=
  match password, password_hash with
  | Some (JStr p), Some (JStr h) => Ok (bcrypt_compare p h)
  | _, _ => Throw
  end.

End Hashing.

(** ** Pieces shared by the two revisions *)

(** [users.find(u => u.k === v)] *)
Definition find_by (k : string) (v : value) (users : list object) : option object :=
  List.find (fun u => strict_eq (u !! k) v) users.

(** The record built by signup:
    [{ id: uuidv4(), name, age, email, mobile, gender, address, password_hash }] *)
Definition new_user (uuid : string) (req_body : object) (password_hash : string) : object :=
  prop "password_hash" (str password_hash)
    (prop "address" (req_body !! "address")
    (prop "gender" (req_body !! "gender")
    (prop "mobile" (req_body !! "mobile")
    (prop "email" (req_body !! "email")
    (prop "age" (req_body !! "age")
    (prop "name" (req_body !! "name")
    (prop "id" (str uuid) ∅))))))).

(** [fs.readFileSync(file, 'utf8')] *)
Definition fs_readFileSync : M text :=
  fun w => (readFileSync (fs w), w).

(** [function writeAll(arr) { fs.writeFileSync(file, JSON.stringify(arr, null, 2)) }],
    the same in both stores. *)
Definition writeAll (arr : list object) : M unit :=
  fun w => (Ok tt, {| fs := writeFileSync arr (fs w); session := session w |}).

(** ** Revision 1: [Syncveil/server.js] over [simpleStore-DESKTOP-N9FJDQI.js] *)

Module V1.

(** [try { ... return JSON.parse(data || '[]') } catch (err) { return [] }] *)
Definition readAll : M (list object) :=
  try_catch
    (data <- fs_readFileSync;; lift (JSON_parse (or_empty_array data)))
    (ret []).

(** What a signup handler holds while it awaits the password hash. *)
Inductive suspended :=
  | AwaitHash (req_body : object) (users : list object).

Section Handlers.
Context `{Bcrypt}.

(** [/api/signup] up to [await bcrypt.hash(password, 10)]. *)
Definition signup_begin (req_body : object) : M (response + suspended) :=
  users <- readAll;;
  if find_by "email" (req_body !! "email") users is Some _
  then r <- res_status_json 400 (Error "Email already exists");; ret (inl r)
  else ret (inr (AwaitHash req_body users)).

(** [/api/signup] from the point where the hash is available. *)
Definition signup_resume (uuid salt : string) (k : suspended) : M response :=
  let '(AwaitHash req_body users) := k in
  password_hash <- lift (hash salt (req_body !! "password"));;
  let user := new_user uuid req_body password_hash in
  writeAll (users ++ [user]);;;
  res_json Success.

(** [/api/signup], run without another request in between. *)
Definition api_signup (uuid salt : string) (req_body : object) : M response :=
  r <- signup_begin req_body;;
  match r with
  | inl answer => ret answer
  | inr k => signup_resume uuid salt k
  end.

(** [/api/login] *)
Definition api_login (req_body : object) : M response :=
  users <- readAll;;
  match find_by "email" (req_body !! "email") users with
  | None => res_status_json 400 (Error "Invalid credentials")
  | Some user =>
      matched <- lift (compare (req_body !! "password") (user !! "password_hash"));;
      if matched : bool
      then set_session_userId (user !! "id");;; res_json Success
      else res_status_json 400 (Error "Invalid credentials")
  end.

(** [/api/me] *)
Definition api_me : M response :=
  users <- readAll;;
  uid <- req_session_userId;;
  match find_by "id" uid users with
  | None => res_status_json 401 (Error "Not logged in")
  | Some user => res_json (User (delete "password_hash" user))
  end.

(** [/api/logout] *)
Definition api_logout : M response :=
  session_destroy;;; res_json Success.

End Handlers.

End V1.

(** ** Revision 2: the listing with guarded handlers and auto-login *)

Module V2.

(** [return JSON.parse(fs.readFileSync(file, 'utf8') || '[]')] *)
Definition readAll : M (list object) :=
  data <- fs_readFileSync;; lift (JSON_parse (or_empty_array data)).

(** [catch (e) { res.status(500).json({ error: 'Server error' }) }] *)
Definition server_error : M response :=
  res_status_json 500 (Error "Server error").

Section Handlers.
Context `{Bcrypt}.

(** [/api/signup] *)
Definition api_signup (uuid salt : string) (req_body : object) : M response :=
  try_catch
    (users <- readAll;;
     if find_by "email" (req_body !! "email") users is Some _
     then res_status_json 400 (Error "Email already exists")
     else
       password_hash <- lift (hash salt (req_body !! "password"));;
       let user := new_user uuid req_body password_hash in
       writeAll (users ++ [user]);;;
       (* Auto-login after signup *)
       set_session_userId (user !! "id");;;
       res_json Success)
    server_error.

(** [/api/login] *)
Definition api_login (req_body : object) : M response :=
  try_catch
    (users <- readAll;;
     match find_by "email" (req_body !! "email") users with
     | None => res_status_json 400 (Error "Invalid credentials")
     | Some user =>
         matched <- lift (compare (req_body !! "password") (user !! "password_hash"));;
         if matched : bool
         then set_session_userId (user !! "id");;; res_json Success
         else res_status_json 400 (Error "Invalid credentials")
     end)
    server_error.

(** [/api/me] *)
Definition api_me : M response :=
  uid <- req_session_userId;;
  if negb (truthy uid)
  then res_status_json 401 (Error "Not logged in")
  else
    users <- readAll;;
    match find_by "id" uid users with
    | None => session_destroy;;; res_status_json 401 (Error "User not found")
    | Some user => res_json (User (delete "password_hash" user))
    end.

(** [/api/logout] *)
Definition api_logout : M response :=
  session_destroy;;; res_json Success.

End Handlers.

End V2.

(** ** Two signups in flight at once *)

(** [/api/signup] is an [async] function: it runs up to
    [await bcrypt.hash(...)], lets other requests run, and resumes once the
    hash is there.  [signup_race] is the schedule in which the second request
    arrives while the first one is waiting for its hash. *)
Definition signup_race `{Bcrypt}
    (uuid1 salt1 : string) (body1 : object) (uuid2 salt2 : string) (body2 : object)
    : M (response * response) :=
  r1 <- V1.signup_begin body1;;
  r2 <- V1.signup_begin body2;;
  a1 <- match r1 with inl a => ret a | inr k => V1.signup_resume uuid1 salt1 k end;;
  a2 <- match r2 with inl a => ret a | inr k => V1.signup_resume uuid2 salt2 k end;;
  ret (a1, a2).

(** ** Names for what the statements below talk about *)

(** The answers the handlers give. *)
Definition ok_success : response := {| status := 200; json_body := Success |}.
Definition email_already_exists : response :=
  {| status := 400; json_body := Error "Email already exists" |}.
Definition invalid_credentials : response :=
  {| status := 400; json_body := Error "Invalid credentials" |}.
Definition not_logged_in : response :=
  {| status := 401; json_body := Error "Not logged in" |}.
Definition user_not_found : response :=
  {| status := 401; json_body := Error "User not found" |}.
Definition server_error_500 : response :=
  {| status := 500; json_body := Error "Server error" |}.

(** The answer [{ user: info }] with [const { password_hash, ...info } = user]. *)
Definition profile_of (user : object) : response :=
  {| status := 200; json_body := User (delete "password_hash" user) |}.

(** The user list a file stands for, when it can be read and parsed. *)
Definition file_users (f : file) : result (list object) :=
  match f with
  | Some (UserArray users) => Ok users
  | Some Blank => Ok []
  | Some Malformed | None => Throw
  end.

(** The user id the request's session carries. *)
Definition session_user (w : world) : value :=
  userId (default fresh_session (session w)).

(** How many stored records carry exactly the email [e]. *)
Definition count_email (e : string) (f : file) : nat :=
  match file_users f with
  | Ok users => length (List.filter (fun u => strict_eq (u !! "email") (str e)) users)
  | Throw => 0
  end.

(** Letter case folded away, as the specification compares emails. *)
Definition to_lower_ascii (c : ascii) : ascii :=
  let n := nat_of_ascii c in
  if (65 <=? n)%nat && (n <=? 90)%nat then ascii_of_nat (n + 32) else c.

Fixpoint to_lower (s : string) : string :=
  match s with
  | EmptyString => EmptyString
  | String c rest => String (to_lower_ascii c) (to_lower rest)
  end.

(** How many stored records carry the email [e] up to letter case. *)
Definition count_email_nocase (e : string) (f : file) : nat :=
  match file_users f with
  | Ok users =>
      length (List.filter
                (fun u : object =>
                   match u !! "email" with
                   | Some (JStr x) => bool_decide (to_lower x = to_lower e)
                   | _ => false
                   end) users)
  | Throw => 0
  end.

(** What login does once the user list is known; [on_throw] is what becomes of
    a rejection by [bcrypt.compare]. *)
Definition login_on `{Bcrypt} (users : list object) (req_body : object) (w : world)
    (on_throw : result response) : result response * world :=
  match find_by "email" (req_body !! "email") users with
  | None => (Ok invalid_credentials, w)
  | Some user =>
      match compare (req_body !! "password") (user !! "password_hash") with
      | Ok true =>
          (Ok ok_success, {| fs := fs w; session := Some {| userId := user !! "id" |} |})
      | Ok false => (Ok invalid_credentials, w)
      | Throw => (on_throw, w)
      end
  end.

(** ** A stand-in hashing library and example data, to run the handlers *)

Definition demo_hash (salt data : string) : string := salt +:+ "$" +:+ data.

Fixpoint after_dollar (s : string) : string :=
  match s with
  | EmptyString => EmptyString
  | String c rest => if bool_decide (c = "$"%char) then rest else after_dollar rest
  end.

Definition demo_compare (data encrypted : string) : bool :=
  bool_decide (after_dollar encrypted = data).

Definition demo_bcrypt : Bcrypt :=
  {| bcrypt_hash := demo_hash; bcrypt_compare := demo_compare |}.

Definition empty_store : world := {| fs := Some (UserArray []); session := None |}.

Definition lower_case_signup : object :=
  {[ "email" := JStr "a@x.com"; "password" := JStr "pw1" ]}.
Definition upper_case_signup : object :=
  {[ "email" := JStr "A@X.com"; "password" := JStr "pw2" ]}.
Definition second_signup_same_email : object :=
  {[ "email" := JStr "a@x.com"; "password" := JStr "pw2" ]}.

(** A store in which [a@x.com] is registered. *)
Definition one_user_store : world :=
  snd (@V1.api_signup demo_bcrypt "id1" "salt1" lower_case_signup empty_store).

(** A record that was never verified, with the hash of [Secret123!]. *)
Definition unverified_user : object :=
  {[ "id" := JStr "u1"; "email" := JStr "u@test.com";
     "password_hash" := JStr (demo_hash "salt" "Secret123!");
     "email_verified" := JBool false ]}.

Definition unverified_store : world :=
  {| fs := Some (UserArray [unverified_user]); session := None |}.

Definition good_login : object :=
  {[ "email" := JStr "u@test.com"; "password" := JStr "Secret123!" ]}.
Definition wrong_password_login : object :=
  {[ "email" := JStr "u@test.com"; "password" := JStr "guess" ]}.

(** A file that is there but does not parse. *)
Definition corrupt_store : world := {| fs := Some Malformed; session := None |}.

(** The same user, logged in. *)
Definition logged_in_store : world :=
  {| fs := Some (UserArray [unverified_user]); session := Some {| userId := str "u1" |} |}.

(** A session that names a user the store does not (or no longer) hold. *)
Definition ghost_session_store : world :=
  {| fs := Some (UserArray [unverified_user]); session := Some {| userId := str "ghost" |} |}.

(** ** Invariants of the user file *)

(** Every email string is carried by at most one stored record. *)
Definition emails_unique (f : file) : Prop :=
  forall e, count_email e f <= 1.

(** Every stored record has an id and a password hash. *)
Definition records_complete (f : file) : Prop :=
  match file_users f with
  | Ok users =>
      Forall (fun u : object => is_Some (u !! "id") /\ is_Some (u !! "password_hash")) users
  | Throw => True
  end.

(** The properties a record written by signup can have. *)
Definition user_fields : list string :=
  ["id"; "name"; "age"; "email"; "mobile"; "gender"; "address"; "password_hash"].

(** The properties signup copies from the request as they are. *)
Definition copied_fields : list string :=
  ["name"; "age"; "email"; "mobile"; "gender"; "address"].

(** ** More example data *)

(** A request that tries to choose its own id and role. *)
Definition overposting_signup : object :=
  {[ "email" := JStr "m@x.com"; "password" := JStr "pw3"; "name" := JStr "Mallory";
     "id" := JStr "admin"; "role" := JStr "admin" ]}.

Definition no_email_signup : object := {[ "password" := JStr "pw4" ]}.
Definition array_email_signup : object :=
  {[ "email" := JNested "[1]"; "password" := JStr "pw5" ]}.
Definition other_signup : object :=
  {[ "email" := JStr "b@x.com"; "password" := JStr "pw6" ]}.

Definition blank_store : world := {| fs := Some Blank; session := None |}.

(** A record without an id, as a file edited by hand may hold. *)
Definition no_id_user : object :=
  {[ "email" := JStr "old@test.com"; "password_hash" := JStr (demo_hash "salt" "old") ]}.
Definition no_id_store : world :=
  {| fs := Some (UserArray [no_id_user]); session := None |}.

Definition number_password_login : object :=
  {[ "email" := JStr "u@test.com"; "password" := JNum 123 ]}.

(** The other order of finishing: the second signup resumes, and writes,
    before the first one does. *)
Definition signup_race_late_first `{Bcrypt}
    (uuid1 salt1 : string) (body1 : object) (uuid2 salt2 : string) (body2 : object)
    : M (response * response) :=
  r1 <- V1.signup_begin body1;;
  r2 <- V1.signup_begin body2;;
  a2 <- match r2 with inl a => ret a | inr k => V1.signup_resume uuid2 salt2 k end;;
  a1 <- match r1 with inl a => ret a | inr k => V1.signup_resume uuid1 salt1 k end;;
  ret (a1, a2).




(** * Proofs *)

(** ** Running the store *)

Lemma V2_readAll_run w : V2.readAll w = (file_users (fs w), w).
Proof. destruct w as [[[| |users]|] s]; reflexivity. Qed.

Lemma V1_readAll_run w :
  V1.readAll w =
    (Ok (match file_users (fs w) with Ok users => users | Throw => [] end), w).
Proof. destruct w as [[[| |users]|] s]; reflexivity. Qed.

Lemma V1_readAll_readable w users :
  file_users (fs w) = Ok users -> V1.readAll w = (Ok users, w).
Proof. intros E. rewrite V1_readAll_run, E. reflexivity. Qed.

(** Unfold one handler down to its reads of the store. *)
Ltac handler h :=
  unfold h, V1.signup_begin, V1.signup_resume, V2.server_error, try_catch, bind,
    res_json, res_status_json, ret, lift;
  rewrite ?V1_readAll_run, ?V2_readAll_run.

(** ** The shape of a signup *)

Section Signup.
Context `{Bcrypt}.

Lemma V1_signup_duplicate uuid salt req_body w users u :
  V1.readAll w = (Ok users, w) ->
  find_by "email" (req_body !! "email") users = Some u ->
  V1.api_signup uuid salt req_body w = (Ok email_already_exists, w).
Proof.
  intros R F. unfold V1.api_signup, V1.signup_begin, bind.
  rewrite R, F. reflexivity.
Qed.

Lemma V1_signup_shape uuid salt req_body w :
  (V1.api_signup uuid salt req_body w = (Ok email_already_exists, w))
  \/ (V1.api_signup uuid salt req_body w = (Throw, w))
  \/ (exists users h,
        V1.readAll w = (Ok users, w)
        /\ find_by "email" (req_body !! "email") users = None
        /\ hash salt (req_body !! "password") = Ok h
        /\ V1.api_signup uuid salt req_body w =
             (Ok ok_success,
              {| fs := Some (UserArray (users ++ [new_user uuid req_body h]));
                 session := session w |})).
Proof.
  handler @V1.api_signup.
  set (users := match file_users (fs w) with Ok us => us | Throw => [] end).
  destruct (find_by "email" (req_body !! "email") users) eqn:F; [left; reflexivity|].
  right. cbn. destruct (hash salt (req_body !! "password")) as [h|] eqn:E.
  - right. exists users, h. repeat split; reflexivity || assumption.
  - left. reflexivity.
Qed.

Lemma V2_signup_shape uuid salt req_body w :
  (V2.api_signup uuid salt req_body w = (Ok email_already_exists, w))
  \/ (V2.api_signup uuid salt req_body w = (Ok server_error_500, w))
  \/ (exists users h,
        V2.readAll w = (Ok users, w)
        /\ find_by "email" (req_body !! "email") users = None
        /\ hash salt (req_body !! "password") = Ok h
        /\ V2.api_signup uuid salt req_body w =
             (Ok ok_success,
              {| fs := Some (UserArray (users ++ [new_user uuid req_body h]));
                 session := Some {| userId := new_user uuid req_body h !! "id" |} |})).
Proof.
  handler @V2.api_signup.
  destruct (file_users (fs w)) as [users|] eqn:R; [|right; left; reflexivity].
  destruct (find_by "email" (req_body !! "email") users) eqn:F; [left; reflexivity|].
  right. cbn. destruct (hash salt (req_body !! "password")) as [h|] eqn:E.
  - right. exists users, h. repeat split; reflexivity || assumption.
  - left. reflexivity.
Qed.

End Signup.

(** ** The record signup writes *)

Lemma lookup_prop k v (o : object) k' :
  prop k v o !! k' =
    if decide (k = k') then match v with Some j => Some j | None => o !! k' end
    else o !! k'.
Proof.
  unfold prop. destruct v as [j|]; case_decide; subst; try reflexivity.
  - apply lookup_insert_eq.
  - by apply lookup_insert_ne.
Qed.

Ltac new_user_lookup :=
  unfold new_user, str; rewrite !lookup_prop;
  repeat (case_decide; try (discriminate || congruence));
  repeat match goal with |- context [match ?v with _ => _ end] => destruct v end;
  try reflexivity.

Lemma new_user_id uuid req_body h : new_user uuid req_body h !! "id" = str uuid.
Proof. new_user_lookup. Qed.

Lemma new_user_email uuid req_body h :
  new_user uuid req_body h !! "email" = req_body !! "email".
Proof.
  unfold new_user, str; rewrite !lookup_prop.
  repeat (case_decide; try (discriminate || congruence)).
  destruct (req_body !! "email"); reflexivity.
Qed.

Lemma new_user_password_hash uuid req_body h :
  new_user uuid req_body h !! "password_hash" = str h.
Proof. new_user_lookup. Qed.

Lemma strict_eq_str_refl e : strict_eq (str e) (str e) = true.
Proof. unfold strict_eq, str. by rewrite bool_decide_eq_true. Qed.

Lemma find_by_app_new k v users u :
  find_by k v users = None -> strict_eq (u !! k) v = true ->
  find_by k v (users ++ [u]) = Some u.
Proof.
  unfold find_by. induction users as [|x xs IH]; cbn; intros F E.
  - by rewrite E.
  - destruct (strict_eq (x !! k) v); [discriminate|]. by apply IH.
Qed.

Lemma filter_none_of_find {A} (p : A -> bool) l :
  List.find p l = None -> List.filter p l = [].
Proof.
  induction l as [|x xs IH]; cbn; [done|].
  destruct (p x); [discriminate|]. exact IH.
Qed.

Lemma count_email_after_signup e users u :
  find_by "email" (str e) users = None -> u !! "email" = str e ->
  count_email e (Some (UserArray (users ++ [u]))) = 1.
Proof.
  intros F E. unfold count_email, file_users.
  rewrite List.filter_app, (filter_none_of_find _ _ F). cbn.
  by rewrite E, strict_eq_str_refl.
Qed.

(** ** Claims about signup *)

(** C1, as the specification words it, fails on both revisions: the handlers
    compare emails with [===].  After [a@x.com] has signed up on an empty
    store, the signup of [A@X.com] is answered with success, not with
    "Email already exists", and the file then holds two records whose emails
    agree up to letter case. *)
Lemma signup_case_variant_accepted :
  to_lower "A@X.com" = to_lower "a@x.com"
  /\ (let w1 := snd (@V1.api_signup demo_bcrypt "id1" "salt1" lower_case_signup empty_store) in
      let r2 := @V1.api_signup demo_bcrypt "id2" "salt2" upper_case_signup w1 in
      fst r2 = Ok ok_success /\ count_email_nocase "a@x.com" (fs (snd r2)) = 2)
  /\ (let w1 := snd (@V2.api_signup demo_bcrypt "id1" "salt1" lower_case_signup empty_store) in
      let r2 := @V2.api_signup demo_bcrypt "id2" "salt2" upper_case_signup w1 in
      fst r2 = Ok ok_success /\ count_email_nocase "a@x.com" (fs (snd r2)) = 2).
Proof. vm_compute. repeat split. Qed.

(** C1, amended: when two signups carry the very same email string and the
    first one succeeds, the second is answered 400 "Email already exists",
    changes nothing, and exactly one stored record carries that email
    (compared with [===], so with regard to letter case).  Both revisions. *)
Theorem signup_same_email_twice `{Bcrypt}
    (uuid1 salt1 uuid2 salt2 e : string) (body1 body2 : object) (w w1 : world) :
  body1 !! "email" = str e ->
  body2 !! "email" = str e ->
  (V1.api_signup uuid1 salt1 body1 w = (Ok ok_success, w1) ->
     V1.api_signup uuid2 salt2 body2 w1 = (Ok email_already_exists, w1)
     /\ count_email e (fs w1) = 1)
  /\ (V2.api_signup uuid1 salt1 body1 w = (Ok ok_success, w1) ->
     V2.api_signup uuid2 salt2 body2 w1 = (Ok email_already_exists, w1)
     /\ count_email e (fs w1) = 1).
Proof.
  intros E1 E2. split; intros S.
  - destruct (V1_signup_shape uuid1 salt1 body1 w) as [D|[D|(users & h & R & F & Hh & D)]];
      rewrite D in S; try discriminate.
    injection S as <-. rewrite E1 in F.
    set (u := new_user uuid1 body1 h).
    assert (Eu : u !! "email" = str e) by (unfold u; rewrite new_user_email; exact E1).
    split; [|by apply count_email_after_signup].
    eapply V1_signup_duplicate.
    + apply V1_readAll_readable. reflexivity.
    + rewrite E2. apply find_by_app_new; [exact F|]. rewrite Eu. apply strict_eq_str_refl.
  - destruct (V2_signup_shape uuid1 salt1 body1 w) as [D|[D|(users & h & R & F & Hh & D)]];
      rewrite D in S; try discriminate.
    injection S as <-. rewrite E1 in F.
    set (u := new_user uuid1 body1 h).
    assert (Eu : u !! "email" = str e) by (unfold u; rewrite new_user_email; exact E1).
    split; [|by apply count_email_after_signup].
    handler @V2.api_signup. cbn [fs file_users].
    rewrite E2, (find_by_app_new _ _ _ u F); [reflexivity|].
    rewrite Eu. apply strict_eq_str_refl.
Qed.

Lemma signup_same_email_twice_witness :
  let w1 := snd (@V1.api_signup demo_bcrypt "id1" "salt1" lower_case_signup empty_store) in
  let w1' := snd (@V2.api_signup demo_bcrypt "id1" "salt1" lower_case_signup empty_store) in
  (@V1.api_signup demo_bcrypt "id2" "salt2" lower_case_signup w1 = (Ok email_already_exists, w1)
   /\ count_email "a@x.com" (fs w1) = 1)
  /\ (@V2.api_signup demo_bcrypt "id2" "salt2" lower_case_signup w1' = (Ok email_already_exists, w1')
   /\ count_email "a@x.com" (fs w1') = 1).
Proof.
  intros w1 w1'. split.
  - refine (proj1 (@signup_same_email_twice demo_bcrypt "id1" "salt1" "id2" "salt2"
             "a@x.com" lower_case_signup lower_case_signup empty_store w1 _ _) _);
      vm_compute; reflexivity.
  - refine (proj2 (@signup_same_email_twice demo_bcrypt "id1" "salt1" "id2" "salt2"
             "a@x.com" lower_case_signup lower_case_signup empty_store w1' _ _) _);
      vm_compute; reflexivity.
Defined.

(** A signup that is not answered with success leaves the file and the session
    as they were. *)
Lemma signup_failure_changes_nothing `{Bcrypt}
    (uuid salt : string) (req_body : object) (w : world) :
  (fst (V1.api_signup uuid salt req_body w) <> Ok ok_success ->
     snd (V1.api_signup uuid salt req_body w) = w)
  /\ (fst (V2.api_signup uuid salt req_body w) <> Ok ok_success ->
     snd (V2.api_signup uuid salt req_body w) = w).
Proof.
  split; intros N.
  - destruct (V1_signup_shape uuid salt req_body w) as [D|[D|(users & h & _ & _ & _ & D)]];
      rewrite D in *; cbn in *; congruence.
  - destruct (V2_signup_shape uuid salt req_body w) as [D|[D|(users & h & _ & _ & _ & D)]];
      rewrite D in *; cbn in *; congruence.
Qed.

(** C10: a signup answered with 400 "Email already exists" returns before
    [writeAll] is reached: the file (and the session) after the call are the
    ones before it, in both revisions. *)
Theorem signup_duplicate_writes_nothing `{Bcrypt}
    (uuid salt : string) (req_body : object) (w w' : world) :
  (V1.api_signup uuid salt req_body w = (Ok email_already_exists, w') -> w' = w)
  /\ (V2.api_signup uuid salt req_body w = (Ok email_already_exists, w') -> w' = w).
Proof.
  split; intros S.
  - destruct (V1_signup_shape uuid salt req_body w) as [D|[D|(users & h & _ & _ & _ & D)]];
      rewrite D in S; unfold ok_success, email_already_exists in S; congruence.
  - destruct (V2_signup_shape uuid salt req_body w) as [D|[D|(users & h & _ & _ & _ & D)]];
      rewrite D in S; unfold ok_success, email_already_exists in S; congruence.
Qed.

Lemma signup_duplicate_writes_nothing_witness :
  @V1.api_signup demo_bcrypt "id2" "salt2" lower_case_signup one_user_store
    = (Ok email_already_exists, one_user_store)
  /\ @V2.api_signup demo_bcrypt "id2" "salt2" lower_case_signup one_user_store
    = (Ok email_already_exists, one_user_store).
Proof.
  assert (E1 : @V1.api_signup demo_bcrypt "id2" "salt2" lower_case_signup one_user_store
               = (Ok email_already_exists,
                  snd (@V1.api_signup demo_bcrypt "id2" "salt2" lower_case_signup one_user_store)))
    by (vm_compute; reflexivity).
  assert (E2 : @V2.api_signup demo_bcrypt "id2" "salt2" lower_case_signup one_user_store
               = (Ok email_already_exists,
                  snd (@V2.api_signup demo_bcrypt "id2" "salt2" lower_case_signup one_user_store)))
    by (vm_compute; reflexivity).
  split.
  - rewrite E1 at 1. apply (f_equal (pair _)).
    exact (proj1 (@signup_duplicate_writes_nothing demo_bcrypt "id2" "salt2"
                    lower_case_signup one_user_store _) E1).
  - rewrite E2 at 1. apply (f_equal (pair _)).
    exact (proj2 (@signup_duplicate_writes_nothing demo_bcrypt "id2" "salt2"
                    lower_case_signup one_user_store _) E2).
Defined.

(** C6, as the specification words it, fails on the second revision: there a
    successful signup logs the new user in.  On an empty store, with no
    session, the signup of [a@x.com] is answered with success and the session
    afterwards holds the new user's id. *)
Lemma signup_v2_issues_session :
  session empty_store = None
  /\ @V2.api_signup demo_bcrypt "id1" "salt1" lower_case_signup empty_store
     = (Ok ok_success,
        {| fs := Some (UserArray [new_user "id1" lower_case_signup (demo_hash "salt1" "pw1")]);
           session := Some {| userId := str "id1" |} |}).
Proof. vm_compute. split; reflexivity. Qed.

(** C6, amended: in [Syncveil/server.js] signup never touches the session,
    whatever its outcome; in the second revision a successful signup stores
    the new user's id in the session (auto-login), and a signup that does not
    succeed leaves the session as it was. *)
Theorem signup_session_effect `{Bcrypt}
    (uuid salt : string) (req_body : object) (w : world) :
  session (snd (V1.api_signup uuid salt req_body w)) = session w
  /\ (fst (V2.api_signup uuid salt req_body w) = Ok ok_success ->
      session (snd (V2.api_signup uuid salt req_body w)) = Some {| userId := str uuid |})
  /\ (fst (V2.api_signup uuid salt req_body w) <> Ok ok_success ->
      session (snd (V2.api_signup uuid salt req_body w)) = session w).
Proof.
  split; [|split].
  - destruct (V1_signup_shape uuid salt req_body w) as [D|[D|(users & h & _ & _ & _ & D)]];
      rewrite D; reflexivity.
  - intros S.
    destruct (V2_signup_shape uuid salt req_body w) as [D|[D|(users & h & _ & _ & _ & D)]];
      rewrite D in *; cbn [fst snd session] in *; try discriminate.
    by rewrite new_user_id.
  - intros N. by rewrite (proj2 (signup_failure_changes_nothing uuid salt req_body w) N).
Qed.

Lemma signup_session_effect_witness :
  session (snd (@V2.api_signup demo_bcrypt "id1" "salt1" lower_case_signup empty_store))
    = Some {| userId := str "id1" |}
  /\ session (snd (@V2.api_signup demo_bcrypt "id2" "salt2" lower_case_signup one_user_store))
    = session one_user_store.
Proof.
  split.
  - apply (proj1 (proj2 (@signup_session_effect demo_bcrypt "id1" "salt1"
                           lower_case_signup empty_store))).
    vm_compute; reflexivity.
  - apply (proj2 (proj2 (@signup_session_effect demo_bcrypt "id2" "salt2"
                           lower_case_signup one_user_store))).
    vm_compute; discriminate.
Defined.

(** C3, as the specification words it, fails: the existence check and the
    write are two steps with the password hashing between them.  Two signups
    for [a@x.com] on an empty store, the second starting while the first
    awaits its hash, are both answered with success; the file ends up with the
    second record only. *)
Lemma signup_race_both_succeed :
  lower_case_signup !! "email" = second_signup_same_email !! "email"
  /\ @signup_race demo_bcrypt "id1" "salt1" lower_case_signup
                  "id2" "salt2" second_signup_same_email empty_store
     = (Ok (ok_success, ok_success),
        {| fs := Some (UserArray
                         [new_user "id2" second_signup_same_email (demo_hash "salt2" "pw2")]);
           session := None |}).
Proof. vm_compute. split; reflexivity. Qed.

(** C3, amended: signup checks the email on the list it has read, awaits the
    hash, then appends to that list and writes it back.  When two signups with
    the same email, not yet in the store, both run their check before either
    writes, both are answered with success, and the second write replaces the
    first: the file holds the list read at the start plus the second record
    only. *)
Theorem signup_check_then_write_race `{Bcrypt}
    (uuid1 salt1 uuid2 salt2 e p1 p2 : string) (body1 body2 : object)
    (w : world) (users : list object) :
  V1.readAll w = (Ok users, w) ->
  find_by "email" (str e) users = None ->
  body1 !! "email" = str e -> body2 !! "email" = str e ->
  body1 !! "password" = str p1 -> body2 !! "password" = str p2 ->
  signup_race uuid1 salt1 body1 uuid2 salt2 body2 w
  = (Ok (ok_success, ok_success),
     {| fs := Some (UserArray (users ++ [new_user uuid2 body2 (bcrypt_hash salt2 p2)]));
        session := session w |}).
Proof.
  intros R F E1 E2 P1 P2.
  unfold signup_race, V1.signup_begin, V1.signup_resume, bind.
  rewrite R, E1, F. unfold ret at 1. cbv beta iota.
  rewrite R, E2, F. unfold ret at 1. cbv beta iota.
  rewrite P1, P2. reflexivity.
Qed.

Lemma signup_check_then_write_race_witness :
  @signup_race demo_bcrypt "id1" "salt1" lower_case_signup
               "id2" "salt2" second_signup_same_email empty_store
  = (Ok (ok_success, ok_success),
     {| fs := Some (UserArray
                      ([] ++ [new_user "id2" second_signup_same_email
                                (@bcrypt_hash demo_bcrypt "salt2" "pw2")]));
        session := session empty_store |}).
Proof.
  apply (@signup_check_then_write_race demo_bcrypt "id1" "salt1" "id2" "salt2"
           "a@x.com" "pw1" "pw2" lower_case_signup second_signup_same_email
           empty_store []);
    vm_compute; reflexivity.
Defined.

(** Run one after the other, the same two signups give one record and a
    refusal. *)
Lemma signup_sequential_second_refused :
  let w1 := snd (@V1.api_signup demo_bcrypt "id1" "salt1" lower_case_signup empty_store) in
  @V1.api_signup demo_bcrypt "id2" "salt2" second_signup_same_email w1
  = (Ok email_already_exists, w1).
Proof. vm_compute. reflexivity. Qed.

(** ** Login, step by step *)

Section Login.
Context `{Bcrypt}.

Lemma V1_login_run req_body w :
  V1.api_login req_body w =
    login_on (match file_users (fs w) with Ok users => users | Throw => [] end)
      req_body w Throw.
Proof.
  handler @V1.api_login. unfold login_on.
  destruct (find_by _ _ _) as [user|]; [|reflexivity].
  cbn. destruct (compare _ _) as [[|]|]; reflexivity.
Qed.

Lemma V2_login_run req_body w :
  V2.api_login req_body w =
    match file_users (fs w) with
    | Ok users => login_on users req_body w (Ok server_error_500)
    | Throw => (Ok server_error_500, w)
    end.
Proof.
  handler @V2.api_login. unfold login_on.
  destruct (file_users (fs w)) as [users|]; [|reflexivity].
  destruct (find_by _ _ _) as [user|]; [|reflexivity].
  cbn. destruct (compare _ _) as [[|]|]; reflexivity.
Qed.

End Login.

(** ** Claims about login *)

(** C2, as the specification words it, fails on both revisions: the handlers
    know no verification state.  For a stored record with
    [email_verified: false] whose hash matches the submitted password, login
    is answered with success and the session receives the user's id. *)
Lemma login_unverified_user_succeeds :
  unverified_user !! "email_verified" = Some (JBool false)
  /\ @V1.api_login demo_bcrypt good_login unverified_store
     = (Ok ok_success,
        {| fs := fs unverified_store; session := Some {| userId := str "u1" |} |})
  /\ @V2.api_login demo_bcrypt good_login unverified_store
     = (Ok ok_success,
        {| fs := fs unverified_store; session := Some {| userId := str "u1" |} |}).
Proof. vm_compute. repeat split. Qed.

(** C2, amended: when the first stored record with the submitted email has a
    hash that verifies against the submitted password, login is answered with
    success and stores that record's id in the session, whatever the record
    holds under [email_verified]; there is no "email not verified" answer and
    no verification token to consume.  Both revisions. *)
Theorem login_ignores_verification `{Bcrypt}
    (req_body : object) (w : world) (users : list object) (user : object) :
  file_users (fs w) = Ok users ->
  find_by "email" (req_body !! "email") users = Some user ->
  compare (req_body !! "password") (user !! "password_hash") = Ok true ->
  V1.api_login req_body w
    = (Ok ok_success, {| fs := fs w; session := Some {| userId := user !! "id" |} |})
  /\ V2.api_login req_body w
    = (Ok ok_success, {| fs := fs w; session := Some {| userId := user !! "id" |} |}).
Proof.
  intros R F C. rewrite V1_login_run, V2_login_run, R. unfold login_on.
  rewrite F, C. split; reflexivity.
Qed.

Lemma login_ignores_verification_witness :
  @V1.api_login demo_bcrypt good_login unverified_store
    = (Ok ok_success,
       {| fs := fs unverified_store;
          session := Some {| userId := unverified_user !! "id" |} |})
  /\ @V2.api_login demo_bcrypt good_login unverified_store
    = (Ok ok_success,
       {| fs := fs unverified_store;
          session := Some {| userId := unverified_user !! "id" |} |}).
Proof.
  apply (@login_ignores_verification demo_bcrypt good_login unverified_store
           [unverified_user] unverified_user);
    vm_compute; reflexivity.
Defined.




(** C8, as the specification words it, fails on [Syncveil/server.js] with the
    store it is paired with: [readAll] swallows the failure and returns an
    empty list, so login over an unparsable (or absent) file is answered with
    400 "Invalid credentials". *)
Lemma login_on_corrupt_store_says_invalid_credentials :
  file_users (fs corrupt_store) = Throw
  /\ @V1.api_login demo_bcrypt good_login corrupt_store
     = (Ok invalid_credentials, corrupt_store)
  /\ @V1.api_login demo_bcrypt good_login {| fs := None; session := None |}
     = (Ok invalid_credentials, {| fs := None; session := None |}).
Proof. vm_compute. repeat split. Qed.

(** C8, amended: when the user file cannot be read or parsed, [readAll] of
    [simpleStore-DESKTOP-N9FJDQI.js] yields the empty list and login in
    [server.js] is answered with 400 "Invalid credentials" for every email and
    password; in the second revision [readAll] throws and login's
    [try]/[catch] answers 500 "Server error".  Neither changes anything. *)
Theorem login_on_unreadable_store `{Bcrypt} (req_body : object) (w : world) :
  file_users (fs w) = Throw ->
  V1.readAll w = (Ok [], w)
  /\ V1.api_login req_body w = (Ok invalid_credentials, w)
  /\ V2.readAll w = (Throw, w)
  /\ V2.api_login req_body w = (Ok server_error_500, w).
Proof.
  intros R. rewrite V1_readAll_run, V2_readAll_run, V1_login_run, V2_login_run, R.
  repeat split.
Qed.

Lemma login_on_unreadable_store_witness :
  V1.readAll corrupt_store = (Ok [], corrupt_store)
  /\ @V1.api_login demo_bcrypt good_login corrupt_store = (Ok invalid_credentials, corrupt_store)
  /\ V2.readAll corrupt_store = (Throw, corrupt_store)
  /\ @V2.api_login demo_bcrypt good_login corrupt_store = (Ok server_error_500, corrupt_store).
Proof.
  apply (@login_on_unreadable_store demo_bcrypt good_login corrupt_store).
  reflexivity.
Defined.

(** ** Claims about [/api/me] *)

Lemma V1_me_run w :
  V1.api_me w =
    match find_by "id" (session_user w)
            (match file_users (fs w) with Ok users => users | Throw => [] end) with
    | Some user => (Ok (profile_of user), w)
    | None => (Ok not_logged_in, w)
    end.
Proof.
  handler @V1.api_me. unfold req_session_userId, session_user.
  destruct (find_by _ _ _); reflexivity.
Qed.

Lemma V2_me_run w :
  V2.api_me w =
    if negb (truthy (session_user w)) then (Ok not_logged_in, w)
    else match file_users (fs w) with
         | Throw => (Throw, w)
         | Ok users =>
             match find_by "id" (session_user w) users with
             | Some user => (Ok (profile_of user), w)
             | None => (Ok user_not_found, {| fs := fs w; session := None |})
             end
         end.
Proof.
  handler @V2.api_me. unfold req_session_userId, session_user, session_destroy.
  destruct (negb _); [reflexivity|]. rewrite V2_readAll_run.
  destruct (file_users (fs w)) as [users|]; [|reflexivity].
  destruct (find_by _ _ _); reflexivity.
Qed.

Lemma find_by_id_undefined users :
  Forall (fun u : object => is_Some (u !! "id")) users ->
  find_by "id" undefined users = None.
Proof.
  unfold find_by. induction 1 as [|u us [j Hj] _ IH]; cbn; [done|].
  rewrite Hj. destruct j; exact IH.
Qed.






(** C9, as the specification words it, fails on the second revision: when the
    session names a user id that no stored record has, [/api/me] destroys the
    session before it answers 401. *)
Lemma whoami_v2_destroys_session :
  V2.api_me ghost_session_store
    = (Ok user_not_found, {| fs := fs ghost_session_store; session := None |})
  /\ session (snd (V2.api_me ghost_session_store)) <> session ghost_session_store.
Proof. vm_compute. split; [reflexivity | discriminate]. Qed.

(** C9, amended: [/api/me] never changes the user file.  In [server.js] it
    leaves the session as it was, whatever it answers; in the second revision
    it leaves the session as it was unless it answers 401 "User not found",
    in which case it has destroyed the session. *)
Theorem whoami_state_effect (w : world) :
  snd (V1.api_me w) = w
  /\ fs (snd (V2.api_me w)) = fs w
  /\ (fst (V2.api_me w) <> Ok user_not_found -> snd (V2.api_me w) = w)
  /\ (fst (V2.api_me w) = Ok user_not_found -> session (snd (V2.api_me w)) = None).
Proof.
  rewrite V1_me_run, V2_me_run. split; [|split; [|split]].
  - destruct (find_by _ _ _); reflexivity.
  - destruct (negb _); [reflexivity|].
    destruct (file_users (fs w)) as [users|]; [|reflexivity].
    destruct (find_by _ _ _); reflexivity.
  - destruct (negb _); [reflexivity|].
    destruct (file_users (fs w)) as [users|]; [|reflexivity].
    destruct (find_by _ _ _); [reflexivity|]. cbn. congruence.
  - destruct (negb _); [discriminate|].
    destruct (file_users (fs w)) as [users|]; [|discriminate].
    destruct (find_by _ _ _); [discriminate|]. reflexivity.
Qed.

Lemma whoami_state_effect_witness :
  snd (V2.api_me logged_in_store) = logged_in_store
  /\ session (snd (V2.api_me ghost_session_store)) = None.
Proof.
  split.
  - apply (proj1 (proj2 (proj2 (whoami_state_effect logged_in_store)))).
    vm_compute. discriminate.
  - apply (proj2 (proj2 (proj2 (whoami_state_effect ghost_session_store)))).
    vm_compute. reflexivity.
Defined.

(** Logout is the handler that revokes: it drops the session and nothing
    else. *)
Lemma logout_destroys_session (w : world) :
  V1.api_logout w = (Ok ok_success, {| fs := fs w; session := None |})
  /\ V2.api_logout w = (Ok ok_success, {| fs := fs w; session := None |}).
Proof. split; reflexivity. Qed.


(** * Further properties of the store and the handlers *)

(** ** Helper facts *)

Lemma strict_eq_str_inv v e : strict_eq v (str e) = true -> v = str e.
Proof.
  unfold strict_eq, str. destruct v as [[| | |s|]|]; try discriminate.
  intros E. apply bool_decide_eq_true in E. by subst.
Qed.

Lemma strict_eq_nested v t : strict_eq v (Some (JNested t)) = false.
Proof. by destruct v as [[| | | |]|]. Qed.

Lemma find_by_nested k t users : find_by k (Some (JNested t)) users = None.
Proof.
  unfold find_by. induction users as [|u us IH]; cbn; [done|].
  by rewrite strict_eq_nested.
Qed.

Lemma find_by_app_other k v users u :
  find_by k v users = None -> strict_eq (u !! k) v = false ->
  find_by k v (users ++ [u]) = None.
Proof.
  unfold find_by. induction users as [|x xs IH]; cbn; intros F E.
  - by rewrite E.
  - destruct (strict_eq (x !! k) v); [discriminate|]. by apply IH.
Qed.

Lemma find_by_Some k v users u :
  find_by k v users = Some u -> u ∈ users /\ strict_eq (u !! k) v = true.
Proof.
  unfold find_by. intros F. apply List.find_some in F as [I E].
  split; [by apply list_elem_of_In | exact E].
Qed.

Lemma count_email_app e users u :
  count_email e (Some (UserArray (users ++ [u])))
  = count_email e (Some (UserArray users))
    + (if strict_eq (u !! "email") (str e) then 1 else 0).
Proof.
  unfold count_email, file_users. rewrite List.filter_app, length_app. cbn.
  by destruct (strict_eq (u !! "email") (str e)).
Qed.

Lemma count_email_none e users :
  find_by "email" (str e) users = None -> count_email e (Some (UserArray users)) = 0.
Proof.
  intros F. unfold count_email, file_users. by rewrite (filter_none_of_find _ _ F).
Qed.


(** ** The store *)

(** What [writeAll] puts in the file is what [readAll] returns next, in both
    stores and whatever the file held before. *)
Lemma store_write_then_read (arr : list object) (w : world) :
  (writeAll arr;;; V1.readAll) w
    = (Ok arr, {| fs := Some (UserArray arr); session := session w |})
  /\ (writeAll arr;;; V2.readAll) w
    = (Ok arr, {| fs := Some (UserArray arr); session := session w |}).
Proof. split; reflexivity. Qed.

(** X1: how reading fails.  [readAll] of [simpleStore-DESKTOP-N9FJDQI.js]
    never throws and never changes anything; the other [readAll] throws
    exactly when the file is gone or is not JSON; an empty file reads as the
    empty list in both; and whenever the second returns a list, the first
    returns the same list. *)
Theorem readAll_failure_modes (w : world) :
  (exists users, V1.readAll w = (Ok users, w))
  /\ (V2.readAll w = (Throw, w) <-> fs w = None \/ fs w = Some Malformed)
  /\ (fs w = Some Blank -> V1.readAll w = (Ok [], w) /\ V2.readAll w = (Ok [], w))
  /\ (forall users, V2.readAll w = (Ok users, w) -> V1.readAll w = (Ok users, w)).
Proof.
  rewrite V1_readAll_run, V2_readAll_run. split; [eauto|]. split; [|split].
  - destruct w as [[[| |users]|] s]; cbn; split; intros E;
      try discriminate; try (destruct E; discriminate); auto.
  - intros ->. split; reflexivity.
  - intros users [= ->]. reflexivity.
Qed.

Lemma readAll_failure_modes_witness :
  (V1.readAll blank_store = (Ok [], blank_store)
   /\ V2.readAll blank_store = (Ok [], blank_store))
  /\ V2.readAll corrupt_store = (Throw, corrupt_store)
  /\ V1.readAll one_user_store = (Ok [new_user "id1" lower_case_signup (demo_hash "salt1" "pw1")],
                                  one_user_store).
Proof.
  split; [|split].
  - apply (proj1 (proj2 (proj2 (readAll_failure_modes blank_store)))). reflexivity.
  - apply (proj1 (proj2 (readAll_failure_modes corrupt_store))). right. reflexivity.
  - apply (proj2 (proj2 (proj2 (readAll_failure_modes one_user_store)))).
    vm_compute. reflexivity.
Defined.

(** ** Signup *)

(** X2: a signup answered with success has appended exactly one record to the
    list [readAll] returned, keeping the records that were there and their
    order; the record is the one built from the request and the hash.  Both
    revisions. *)
Theorem signup_success_appends `{Bcrypt}
    (uuid salt : string) (req_body : object) (w w' : world) :
  (V1.api_signup uuid salt req_body w = (Ok ok_success, w') ->
     exists users h,
       V1.readAll w = (Ok users, w)
       /\ hash salt (req_body !! "password") = Ok h
       /\ fs w' = Some (UserArray (users ++ [new_user uuid req_body h])))
  /\ (V2.api_signup uuid salt req_body w = (Ok ok_success, w') ->
     exists users h,
       V2.readAll w = (Ok users, w)
       /\ hash salt (req_body !! "password") = Ok h
       /\ fs w' = Some (UserArray (users ++ [new_user uuid req_body h]))).
Proof.
  split; intros S.
  - destruct (V1_signup_shape uuid salt req_body w) as [D|[D|(users & h & R & _ & Hh & D)]];
      rewrite D in S; try discriminate.
    injection S as <-. exists users, h. auto.
  - destruct (V2_signup_shape uuid salt req_body w) as [D|[D|(users & h & R & _ & Hh & D)]];
      rewrite D in S; try discriminate.
    injection S as <-. exists users, h. auto.
Qed.

Lemma signup_success_appends_witness :
  exists users h,
    V1.readAll one_user_store = (Ok users, one_user_store)
    /\ @hash demo_bcrypt "salt6" (other_signup !! "password") = Ok h
    /\ fs (snd (@V1.api_signup demo_bcrypt "id6" "salt6" other_signup one_user_store))
       = Some (UserArray (users ++ [new_user "id6" other_signup h])).
Proof.
  apply (proj1 (@signup_success_appends demo_bcrypt "id6" "salt6" other_signup one_user_store
                  (snd (@V1.api_signup demo_bcrypt "id6" "salt6" other_signup one_user_store)))).
  vm_compute. reflexivity.
Defined.

(** X3: what a stored record holds.  Its id is the generated uuid and its
    [password_hash] the bcrypt hash, whatever the request put under those
    names; [name], [age], [email], [mobile], [gender] and [address] are the
    request's; and it has no other property: neither the plaintext
    [password] nor any extra property of the request is stored. *)
Theorem stored_record_fields (uuid h k : string) (req_body : object) :
  new_user uuid req_body h !! "id" = str uuid
  /\ new_user uuid req_body h !! "password_hash" = str h
  /\ (k ∈ copied_fields -> new_user uuid req_body h !! k = req_body !! k)
  /\ (k ∉ user_fields -> new_user uuid req_body h !! k = None)
  /\ new_user uuid req_body h !! "password" = None.
Proof.
  split; [apply new_user_id|]. split; [apply new_user_password_hash|].
  split; [|split].
  - unfold copied_fields. rewrite !elem_of_cons, elem_of_nil.
    intros [->|[->|[->|[->|[->|[->|[]]]]]]];
      unfold new_user, str; rewrite !lookup_prop;
      repeat (case_decide; try (discriminate || congruence));
      match goal with |- context [match ?v with _ => _ end] => destruct v end;
      reflexivity.
  - unfold user_fields. rewrite !not_elem_of_cons. intros (?&?&?&?&?&?&?&?&_).
    unfold new_user, str; rewrite !lookup_prop.
    repeat (case_decide; try congruence).
    repeat match goal with |- context [match ?v with _ => _ end] => destruct v end;
      apply lookup_empty.
  - unfold new_user, str; rewrite !lookup_prop.
    repeat (case_decide; try (discriminate || congruence)).
    repeat match goal with |- context [match ?v with _ => _ end] => destruct v end;
      apply lookup_empty.
Qed.

Lemma stored_record_fields_witness :
  new_user "id3" overposting_signup "h" !! "name" = overposting_signup !! "name"
  /\ new_user "id3" overposting_signup "h" !! "role" = None.
Proof.
  split.
  - apply (proj1 (proj2 (proj2 (stored_record_fields "id3" "h" "name" overposting_signup)))).
    apply (bool_decide_unpack _). vm_compute. exact I.
  - apply (proj1 (proj2 (proj2 (proj2 (stored_record_fields "id3" "h" "role"
                                          overposting_signup))))).
    apply (bool_decide_unpack _). vm_compute. exact I.
Defined.

(** X4: signup over a file that is there but does not hold JSON.  In
    [server.js] (whose [readAll] then returns the empty list) a signup with a
    string password succeeds and the file afterwards holds the new record
    only, in place of what it held; in the second revision the signup over a
    file that cannot be read or parsed is answered 500 "Server error" and
    nothing is written. *)
Theorem signup_on_unreadable_file `{Bcrypt}
    (uuid salt p : string) (req_body : object) (w : world) :
  (fs w = Some Malformed ->
   req_body !! "password" = str p ->
   V1.api_signup uuid salt req_body w
     = (Ok ok_success,
        {| fs := Some (UserArray [new_user uuid req_body (bcrypt_hash salt p)]);
           session := session w |}))
  /\ (file_users (fs w) = Throw ->
      V2.api_signup uuid salt req_body w = (Ok server_error_500, w)).
Proof.
  split.
  - intros R P. handler @V1.api_signup. rewrite R. cbn. rewrite P. reflexivity.
  - intros R. handler @V2.api_signup. rewrite R. reflexivity.
Qed.

Lemma signup_on_unreadable_file_witness :
  @V1.api_signup demo_bcrypt "id1" "salt1" lower_case_signup corrupt_store
    = (Ok ok_success,
       {| fs := Some (UserArray [new_user "id1" lower_case_signup
                                   (@bcrypt_hash demo_bcrypt "salt1" "pw1")]);
          session := session corrupt_store |})
  /\ @V2.api_signup demo_bcrypt "id1" "salt1" lower_case_signup corrupt_store
    = (Ok server_error_500, corrupt_store).
Proof.
  split.
  - apply (proj1 (@signup_on_unreadable_file demo_bcrypt "id1" "salt1" "pw1"
                    lower_case_signup corrupt_store)); reflexivity.
  - apply (proj2 (@signup_on_unreadable_file demo_bcrypt "id1" "salt1" "pw1"
                    lower_case_signup corrupt_store)); reflexivity.
Defined.



Lemma V1_readAll_count e w users :
  V1.readAll w = (Ok users, w) ->
  count_email e (Some (UserArray users)) = count_email e (fs w).
Proof.
  rewrite V1_readAll_run. intros [= <-]. unfold count_email at 2.
  destruct (file_users (fs w)); reflexivity.
Qed.

Lemma V2_readAll_count e w users :
  V2.readAll w = (Ok users, w) ->
  count_email e (Some (UserArray users)) = count_email e (fs w).
Proof.
  rewrite V2_readAll_run. intros [= E]. unfold count_email at 2. by rewrite E.
Qed.

Lemma emails_unique_after_append e users u req_email :
  find_by "email" req_email users = None ->
  u !! "email" = req_email ->
  count_email e (Some (UserArray users)) <= 1 ->
  count_email e (Some (UserArray (users ++ [u]))) <= 1.
Proof.
  intros F E C. rewrite count_email_app.
  destruct (strict_eq (u !! "email") (str e)) eqn:S; [|lia].
  apply strict_eq_str_inv in S. rewrite <- E, S in F.
  rewrite (count_email_none _ _ F). lia.
Qed.

(** X6: signups that run one after the other keep emails unique.  If no email
    string is carried by two stored records before a signup, none is after
    it, whatever the request and whatever the answer.  Both revisions. *)
Theorem signup_keeps_emails_unique `{Bcrypt}
    (uuid salt : string) (req_body : object) (w : world) :
  emails_unique (fs w) ->
  emails_unique (fs (snd (V1.api_signup uuid salt req_body w)))
  /\ emails_unique (fs (snd (V2.api_signup uuid salt req_body w))).
Proof.
  intros U. split.
  - destruct (V1_signup_shape uuid salt req_body w) as [D|[D|(users & h & R & F & _ & D)]];
      rewrite D; cbn [snd fs]; try exact U.
    intros e. eapply emails_unique_after_append; [exact F | apply new_user_email |].
    rewrite (V1_readAll_count e w users R). apply U.
  - destruct (V2_signup_shape uuid salt req_body w) as [D|[D|(users & h & R & F & _ & D)]];
      rewrite D; cbn [snd fs]; try exact U.
    intros e. eapply emails_unique_after_append; [exact F | apply new_user_email |].
    rewrite (V2_readAll_count e w users R). apply U.
Qed.

Lemma one_user_store_emails_unique : emails_unique (fs one_user_store).
Proof.
  intros e. change (fs one_user_store)
    with (Some (UserArray ([] ++ [new_user "id1" lower_case_signup (demo_hash "salt1" "pw1")]))).
  apply (emails_unique_after_append e [] _ (lower_case_signup !! "email")).
  - reflexivity.
  - apply new_user_email.
  - cbn. lia.
Qed.

Lemma signup_keeps_emails_unique_witness :
  emails_unique (fs (snd (@V1.api_signup demo_bcrypt "id6" "salt6" other_signup one_user_store)))
  /\ emails_unique (fs (snd (@V2.api_signup demo_bcrypt "id6" "salt6" other_signup one_user_store))).
Proof.
  apply (@signup_keeps_emails_unique demo_bcrypt "id6" "salt6" other_signup one_user_store).
  exact one_user_store_emails_unique.
Defined.

Lemma V1_readAll_complete w users :
  V1.readAll w = (Ok users, w) -> records_complete (fs w) ->
  Forall (fun u : object => is_Some (u !! "id") /\ is_Some (u !! "password_hash")) users.
Proof.
  rewrite V1_readAll_run. intros [= <-]. unfold records_complete.
  destruct (file_users (fs w)); [auto | constructor].
Qed.

Lemma V2_readAll_complete w users :
  V2.readAll w = (Ok users, w) -> records_complete (fs w) ->
  Forall (fun u : object => is_Some (u !! "id") /\ is_Some (u !! "password_hash")) users.
Proof.
  rewrite V2_readAll_run. intros [= E]. unfold records_complete. by rewrite E.
Qed.

Lemma new_user_complete uuid req_body h :
  is_Some (new_user uuid req_body h !! "id")
  /\ is_Some (new_user uuid req_body h !! "password_hash").
Proof. rewrite new_user_id, new_user_password_hash. split; eexists; reflexivity. Qed.

(** X7: signup keeps the records complete.  If every stored record has an
    [id] and a [password_hash] before a signup, every stored record has them
    after it; in particular the record signup adds always has both.  Both
    revisions. *)
Theorem signup_keeps_records_complete `{Bcrypt}
    (uuid salt : string) (req_body : object) (w : world) :
  records_complete (fs w) ->
  records_complete (fs (snd (V1.api_signup uuid salt req_body w)))
  /\ records_complete (fs (snd (V2.api_signup uuid salt req_body w))).
Proof.
  intros C. split.
  - destruct (V1_signup_shape uuid salt req_body w) as [D|[D|(users & h & R & _ & _ & D)]];
      rewrite D; cbn [snd fs]; try exact C.
    unfold records_complete, file_users. apply Forall_app. split.
    + by apply (V1_readAll_complete w).
    + repeat constructor; apply new_user_complete.
  - destruct (V2_signup_shape uuid salt req_body w) as [D|[D|(users & h & R & _ & _ & D)]];
      rewrite D; cbn [snd fs]; try exact C.
    unfold records_complete, file_users. apply Forall_app. split.
    + by apply (V2_readAll_complete w).
    + repeat constructor; apply new_user_complete.
Qed.

Lemma signup_keeps_records_complete_witness :
  records_complete (fs (snd (@V1.api_signup demo_bcrypt "id1" "salt1" lower_case_signup empty_store)))
  /\ records_complete (fs (snd (@V2.api_signup demo_bcrypt "id1" "salt1" lower_case_signup empty_store))).
Proof.
  apply (@signup_keeps_records_complete demo_bcrypt "id1" "salt1" lower_case_signup empty_store).
  constructor.
Defined.

(** X8: the duplicate check on other values than strings.  Once a signup
    whose [email] is missing, [null], a boolean, a number or a string has
    succeeded, a second signup with the same value (also: again without
    [email]) is answered 400 "Email already exists" and changes nothing.
    Both revisions. *)
Theorem signup_same_primitive_email_twice `{Bcrypt}
    (uuid1 salt1 uuid2 salt2 : string) (body1 body2 : object) (w w1 : world) :
  strict_eq (body1 !! "email") (body1 !! "email") = true ->
  body2 !! "email" = body1 !! "email" ->
  (V1.api_signup uuid1 salt1 body1 w = (Ok ok_success, w1) ->
     V1.api_signup uuid2 salt2 body2 w1 = (Ok email_already_exists, w1))
  /\ (V2.api_signup uuid1 salt1 body1 w = (Ok ok_success, w1) ->
     V2.api_signup uuid2 salt2 body2 w1 = (Ok email_already_exists, w1)).
Proof.
  intros P E. split; intros S.
  - destruct (V1_signup_shape uuid1 salt1 body1 w) as [D|[D|(users & h & R & F & Hh & D)]];
      rewrite D in S; try discriminate.
    injection S as <-. eapply V1_signup_duplicate.
    + apply V1_readAll_readable. reflexivity.
    + rewrite E. apply find_by_app_new; [exact F|]. by rewrite new_user_email.
  - destruct (V2_signup_shape uuid1 salt1 body1 w) as [D|[D|(users & h & R & F & Hh & D)]];
      rewrite D in S; try discriminate.
    injection S as <-. handler @V2.api_signup. cbn [fs file_users].
    rewrite E, (find_by_app_new _ _ _ (new_user uuid1 body1 h) F); [reflexivity|].
    by rewrite new_user_email.
Qed.

Lemma signup_same_primitive_email_twice_witness :
  let w1 := snd (@V1.api_signup demo_bcrypt "id4" "salt4" no_email_signup empty_store) in
  let w1' := snd (@V2.api_signup demo_bcrypt "id4" "salt4" no_email_signup empty_store) in
  @V1.api_signup demo_bcrypt "id5" "salt5" no_email_signup w1 = (Ok email_already_exists, w1)
  /\ @V2.api_signup demo_bcrypt "id5" "salt5" no_email_signup w1' = (Ok email_already_exists, w1').
Proof.
  intros w1 w1'. split.
  - refine (proj1 (@signup_same_primitive_email_twice demo_bcrypt "id4" "salt4" "id5" "salt5"
                     no_email_signup no_email_signup empty_store w1 _ _) _);
      vm_compute; reflexivity.
  - refine (proj2 (@signup_same_primitive_email_twice demo_bcrypt "id4" "salt4" "id5" "salt5"
                     no_email_signup no_email_signup empty_store w1' _ _) _);
      vm_compute; reflexivity.
Defined.

(** X9: an [email] that is an array or an object never counts as taken: the
    duplicate check compares with [===], which is false between two parsed
    arrays or objects.  Such a signup is never answered 400 "Email already
    exists", whatever else the request holds and whatever the file; and over
    a file that can be read it succeeds, given a string password, in both
    revisions, also when a record with the same array is already stored. *)
Theorem signup_nested_email_never_duplicate `{Bcrypt}
    (uuid salt t : string) (req_body : object) (w : world) :
  req_body !! "email" = Some (JNested t) ->
  fst (V1.api_signup uuid salt req_body w) <> Ok email_already_exists
  /\ fst (V2.api_signup uuid salt req_body w) <> Ok email_already_exists
  /\ (forall users p,
        file_users (fs w) = Ok users ->
        req_body !! "password" = str p ->
        fst (V1.api_signup uuid salt req_body w) = Ok ok_success
        /\ fst (V2.api_signup uuid salt req_body w) = Ok ok_success).
Proof.
  intros E. split; [|split].
  - handler @V1.api_signup. rewrite E, find_by_nested. cbn.
    destruct (hash salt (req_body !! "password")); discriminate.
  - handler @V2.api_signup. destruct (file_users (fs w)); [|discriminate].
    rewrite E, find_by_nested. cbn.
    destruct (hash salt (req_body !! "password")); discriminate.
  - intros users p R P. split.
    + handler @V1.api_signup. rewrite R, E, find_by_nested. cbn. rewrite P. reflexivity.
    + handler @V2.api_signup. rewrite R, E, find_by_nested. cbn. rewrite P. reflexivity.
Qed.

Lemma signup_nested_email_never_duplicate_witness :
  let w1 := snd (@V1.api_signup demo_bcrypt "id7" "salt7" array_email_signup empty_store) in
  (fst (@V1.api_signup demo_bcrypt "id7" "salt7" array_email_signup empty_store) = Ok ok_success
   /\ fst (@V2.api_signup demo_bcrypt "id7" "salt7" array_email_signup empty_store) = Ok ok_success)
  /\ (fst (@V1.api_signup demo_bcrypt "id8" "salt8" array_email_signup w1) = Ok ok_success
   /\ fst (@V2.api_signup demo_bcrypt "id8" "salt8" array_email_signup w1) = Ok ok_success).
Proof.
  intros w1. split.
  - pose proof (@signup_nested_email_never_duplicate demo_bcrypt "id7" "salt7" "[1]"
                  array_email_signup empty_store eq_refl) as (_ & _ & H3).
    eapply H3; vm_compute; reflexivity.
  - pose proof (@signup_nested_email_never_duplicate demo_bcrypt "id8" "salt8" "[1]"
                  array_email_signup w1 eq_refl) as (_ & _ & H3).
    eapply H3; vm_compute; reflexivity.
Defined.

(** ** Login *)



(** X11: what login leaves alone.  Login never changes the user file, whatever
    it answers, and a login that is not answered with success leaves the
    session as it was: a failed attempt does not log anybody out.  Both
    revisions. *)
Theorem login_frame `{Bcrypt} (req_body : object) (w : world) :
  fs (snd (V1.api_login req_body w)) = fs w
  /\ fs (snd (V2.api_login req_body w)) = fs w
  /\ (fst (V1.api_login req_body w) <> Ok ok_success -> snd (V1.api_login req_body w) = w)
  /\ (fst (V2.api_login req_body w) <> Ok ok_success -> snd (V2.api_login req_body w) = w).
Proof.
  rewrite V1_login_run, V2_login_run. unfold login_on.
  destruct (file_users (fs w)) as [users|];
    repeat (split || intros N);
    repeat match goal with
           | |- context [find_by ?k ?v ?l] => destruct (find_by k v l)
           | |- context [compare ?a ?b] => destruct (compare a b) as [[|]|]
           | N : context [find_by ?k ?v ?l] |- _ => destruct (find_by k v l)
           | N : context [compare ?a ?b] |- _ => destruct (compare a b) as [[|]|]
           end;
    cbn in *; congruence.
Qed.

Lemma login_frame_witness :
  snd (@V1.api_login demo_bcrypt wrong_password_login logged_in_store) = logged_in_store
  /\ snd (@V2.api_login demo_bcrypt wrong_password_login logged_in_store) = logged_in_store.
Proof.
  split.
  - apply (proj1 (proj2 (proj2 (@login_frame demo_bcrypt wrong_password_login
                                   logged_in_store)))).
    vm_compute. discriminate.
  - apply (proj2 (proj2 (proj2 (@login_frame demo_bcrypt wrong_password_login
                                   logged_in_store)))).
    vm_compute. discriminate.
Defined.

(** X12: a login for a known email that [bcrypt.compare] rejects, because the
    submitted [password] is missing or not a string or because the stored
    record has no string [password_hash], is not answered 400 "Invalid
    credentials": the rejection escapes the handler of [server.js], and the
    second revision answers 500 "Server error".  Nothing changes. *)
Theorem login_compare_rejects `{Bcrypt}
    (req_body : object) (w : world) (users : list object) (user : object) :
  file_users (fs w) = Ok users ->
  find_by "email" (req_body !! "email") users = Some user ->
  compare (req_body !! "password") (user !! "password_hash") = Throw ->
  V1.api_login req_body w = (Throw, w)
  /\ V2.api_login req_body w = (Ok server_error_500, w).
Proof.
  intros R F C. rewrite V1_login_run, V2_login_run, R. unfold login_on.
  rewrite F, C. split; reflexivity.
Qed.

Lemma login_compare_rejects_witness :
  @V1.api_login demo_bcrypt number_password_login unverified_store = (Throw, unverified_store)
  /\ @V2.api_login demo_bcrypt number_password_login unverified_store
     = (Ok server_error_500, unverified_store).
Proof.
  apply (@login_compare_rejects demo_bcrypt number_password_login unverified_store
           [unverified_user] unverified_user);
    vm_compute; reflexivity.
Defined.

(** X13: over a user file that can be read, the two revisions of login give
    the same answer and leave the same state, except when [bcrypt.compare]
    rejects. *)
Theorem login_revisions_agree `{Bcrypt}
    (req_body : object) (w : world) (users : list object) :
  file_users (fs w) = Ok users ->
  (forall user, find_by "email" (req_body !! "email") users = Some user ->
     compare (req_body !! "password") (user !! "password_hash") <> Throw) ->
  V1.api_login req_body w = V2.api_login req_body w.
Proof.
  intros R C. rewrite V1_login_run, V2_login_run, R. unfold login_on.
  destruct (find_by _ _ _) as [user|]; [|reflexivity].
  specialize (C user eq_refl). destruct (compare _ _) as [[|]|]; congruence.
Qed.

Lemma login_revisions_agree_witness :
  @V1.api_login demo_bcrypt good_login unverified_store
  = @V2.api_login demo_bcrypt good_login unverified_store.
Proof.
  apply (@login_revisions_agree demo_bcrypt good_login unverified_store [unverified_user]).
  - reflexivity.
  - intros user F. vm_compute in F. injection F as <-. vm_compute. discriminate.
Defined.

(** ** Who am I, logout *)

(** X14: login, then [/api/me].  After a login answered with success for a
    user whose id is a non-empty string and who is the first stored record
    with that id, [/api/me] on the same session answers with that user's
    record without its [password_hash].  Both revisions. *)
Theorem login_then_whoami `{Bcrypt}
    (req_body : object) (w w1 : world) (users : list object) (user : object) (i : string) :
  file_users (fs w) = Ok users ->
  find_by "email" (req_body !! "email") users = Some user ->
  user !! "id" = str i -> i <> "" ->
  find_by "id" (str i) users = Some user ->
  (V1.api_login req_body w = (Ok ok_success, w1) ->
     V1.api_me w1 = (Ok (profile_of user), w1))
  /\ (V2.api_login req_body w = (Ok ok_success, w1) ->
     V2.api_me w1 = (Ok (profile_of user), w1)).
Proof.
  intros R F I N FI. rewrite V1_login_run, V2_login_run, R. unfold login_on. rewrite F.
  assert (T : truthy (str i) = true)
    by (unfold truthy, str; by rewrite bool_decide_eq_false_2).
  split; destruct (compare _ _) as [[|]|]; intros [= <-];
    [rewrite V1_me_run | rewrite V2_me_run];
    unfold session_user; cbn [fs session default userId];
    rewrite I, R; change (userId (id {| userId := str i |})) with (str i);
    rewrite ?T; cbn [negb]; cbv beta iota; rewrite FI; reflexivity.
Qed.

Lemma login_then_whoami_witness :
  let w1 := snd (@V1.api_login demo_bcrypt good_login unverified_store) in
  V1.api_me w1 = (Ok (profile_of unverified_user), w1)
  /\ V2.api_me w1 = (Ok (profile_of unverified_user), w1).
Proof.
  intros w1.
  assert (N : "u1" <> "") by discriminate.
  split.
  - refine (proj1 (@login_then_whoami demo_bcrypt good_login unverified_store w1
                     [unverified_user] unverified_user "u1" _ _ _ N _) _);
      vm_compute; reflexivity.
  - refine (proj2 (@login_then_whoami demo_bcrypt good_login unverified_store w1
                     [unverified_user] unverified_user "u1" _ _ _ N _) _);
      vm_compute; reflexivity.
Defined.

Lemma records_complete_have_ids w users :
  V1.readAll w = (Ok users, w) -> records_complete (fs w) ->
  Forall (fun u : object => is_Some (u !! "id")) users.
Proof.
  intros R C. eapply Forall_impl; [exact (V1_readAll_complete w users R C)|].
  by intros u [? _].
Qed.

(** X15: logout.  It is answered with success from every state, also
    without a session and over an unreadable file, and leaves the user file
    as it was; doing it twice leaves the same state as doing it once; and
    [/api/me] right after it is answered 401 "Not logged in" (in [server.js]
    as long as every stored record has an id).  Both revisions. *)
Theorem logout_revokes (w : world) :
  V1.api_logout w = (Ok ok_success, {| fs := fs w; session := None |})
  /\ V2.api_logout w = (Ok ok_success, {| fs := fs w; session := None |})
  /\ (V1.api_logout;;; V1.api_logout) w = V1.api_logout w
  /\ (V2.api_logout;;; V2.api_logout) w = V2.api_logout w
  /\ (V2.api_logout;;; V2.api_me) w
     = (Ok not_logged_in, {| fs := fs w; session := None |})
  /\ (records_complete (fs w) ->
      (V1.api_logout;;; V1.api_me) w
      = (Ok not_logged_in, {| fs := fs w; session := None |})).
Proof.
  do 4 (split; [reflexivity|]). split.
  - unfold V2.api_logout, bind, session_destroy, res_json, res_status_json, ret.
    rewrite V2_me_run. reflexivity.
  - intros C. unfold V1.api_logout, bind, session_destroy, res_json, res_status_json, ret.
    rewrite V1_me_run. cbn [fs]. change (session_user _) with undefined.
    rewrite find_by_id_undefined; [reflexivity|].
    apply (records_complete_have_ids w); [apply V1_readAll_run | exact C].
Qed.

Lemma logout_revokes_witness :
  (V1.api_logout;;; V1.api_me) logged_in_store
  = (Ok not_logged_in, {| fs := fs logged_in_store; session := None |}).
Proof.
  apply (proj2 (proj2 (proj2 (proj2 (proj2 (logout_revokes logged_in_store)))))).
  repeat constructor; eexists; vm_compute; reflexivity.
Defined.

(** X16: what [/api/me] returns.  Every answer with status 200 is built from
    a stored record whose [id] is [===] the session's user id, and carries all
    of that record's properties other than [password_hash] unchanged (so also
    properties signup never writes).  Both revisions. *)
Theorem whoami_returns_the_record (w : world) (r : response) :
  fst (V1.api_me w) = Ok r \/ fst (V2.api_me w) = Ok r ->
  status r = 200 ->
  exists users user info,
    V1.readAll w = (Ok users, w)
    /\ user ∈ users
    /\ strict_eq (user !! "id") (session_user w) = true
    /\ json_body r = User info
    /\ forall k, k <> "password_hash" -> info !! k = user !! k.
Proof.
  rewrite V1_me_run, V2_me_run, V1_readAll_run. intros Hr S.
  assert (P : forall users user,
             find_by "id" (session_user w) users = Some user ->
             exists user' info,
               user' ∈ users /\ strict_eq (user' !! "id") (session_user w) = true
               /\ json_body (profile_of user) = User info
               /\ forall k, k <> "password_hash" -> info !! k = user' !! k).
  { intros users user F. apply find_by_Some in F as [I E].
    exists user, (delete "password_hash" user). repeat split; auto.
    intros k N. by apply lookup_delete_ne. }
  destruct Hr as [Hr|Hr].
  - destruct (find_by _ _ _) as [user|] eqn:F; cbn in Hr; injection Hr as <-;
      [|discriminate S].
    destruct (P _ _ F) as (u & info & ?). eexists _, u, info. split; [reflexivity|eassumption].
  - destruct (negb _); [cbn in Hr; injection Hr as <-; discriminate S|].
    destruct (file_users (fs w)) as [users|]; [|discriminate Hr].
    destruct (find_by _ _ _) as [user|] eqn:F; cbn in Hr; injection Hr as <-;
      [|discriminate S].
    destruct (P _ _ F) as (u & info & ?). eexists _, u, info. split; [reflexivity|eassumption].
Qed.

Lemma whoami_returns_the_record_witness :
  exists users user info,
    V1.readAll logged_in_store = (Ok users, logged_in_store)
    /\ user ∈ users
    /\ strict_eq (user !! "id") (session_user logged_in_store) = true
    /\ json_body (profile_of unverified_user) = User info
    /\ forall k, k <> "password_hash" -> info !! k = user !! k.
Proof.
  apply (whoami_returns_the_record logged_in_store (profile_of unverified_user)).
  - right. vm_compute. reflexivity.
  - reflexivity.
Defined.

(** X17: a request without a session user id against a file that holds a
    record without an [id].  In [server.js] the lookup [u.id === undefined]
    matches that record and [/api/me] answers with its profile; the second
    revision answers 401 "Not logged in" before it reads the file. *)
Theorem whoami_without_session_id (w : world) (users : list object) (user : object) :
  session_user w = undefined ->
  V1.readAll w = (Ok users, w) ->
  find_by "id" undefined users = Some user ->
  V1.api_me w = (Ok (profile_of user), w)
  /\ user !! "id" = None
  /\ V2.api_me w = (Ok not_logged_in, w).
Proof.
  intros U R F. rewrite V1_me_run, V2_me_run, U. rewrite V1_readAll_run in R.
  injection R as ->. rewrite F. split; [reflexivity|]. split; [|reflexivity].
  apply find_by_Some in F as [_ E]. unfold strict_eq, undefined in E.
  by destruct (user !! "id") as [[| | | |]|].
Qed.

Lemma whoami_without_session_id_witness :
  V1.api_me no_id_store = (Ok (profile_of no_id_user), no_id_store)
  /\ no_id_user !! "id" = None
  /\ V2.api_me no_id_store = (Ok not_logged_in, no_id_store).
Proof.
  apply (whoami_without_session_id no_id_store [no_id_user] no_id_user);
    vm_compute; reflexivity.
Defined.

(** ** Two signups in flight, different emails *)

(** X18: the lost update.  When two signups in [server.js] for two different
    emails, neither stored yet, both run their check before either writes,
    both are answered with success, but the file ends up with the list read
    at the start plus the record of the signup that wrote last only; a login
    with the email and password of the signup that wrote first is then
    answered 400 "Invalid credentials".  Both orders of writing. *)
Theorem signup_race_loses_first_user `{Bcrypt}
    (uuid1 salt1 uuid2 salt2 e1 e2 p1 p2 : string) (body1 body2 : object)
    (w : world) (users : list object) :
  V1.readAll w = (Ok users, w) ->
  e1 <> e2 ->
  find_by "email" (str e1) users = None ->
  find_by "email" (str e2) users = None ->
  body1 !! "email" = str e1 -> body2 !! "email" = str e2 ->
  body1 !! "password" = str p1 -> body2 !! "password" = str p2 ->
  let second_only :=
    {| fs := Some (UserArray (users ++ [new_user uuid2 body2 (bcrypt_hash salt2 p2)]));
       session := session w |} in
  let first_only :=
    {| fs := Some (UserArray (users ++ [new_user uuid1 body1 (bcrypt_hash salt1 p1)]));
       session := session w |} in
  (signup_race uuid1 salt1 body1 uuid2 salt2 body2 w
     = (Ok (ok_success, ok_success), second_only)
   /\ V1.api_login body1 second_only = (Ok invalid_credentials, second_only))
  /\ (signup_race_late_first uuid1 salt1 body1 uuid2 salt2 body2 w
     = (Ok (ok_success, ok_success), first_only)
   /\ V1.api_login body2 first_only = (Ok invalid_credentials, first_only)).
Proof.
  intros R N F1 F2 E1 E2 P1 P2 second_only first_only.
  assert (L : forall e e' uuid body h,
             e <> e' -> find_by "email" (str e) users = None ->
             body !! "email" = str e' ->
             find_by "email" (str e) (users ++ [new_user uuid body h]) = None).
  { intros e e' uuid body h Ne F E. apply (find_by_app_other _ _ _ _ F).
    rewrite new_user_email, E. unfold strict_eq, str.
    apply bool_decide_eq_false_2. congruence. }
  split; split.
  - unfold signup_race, V1.signup_begin, V1.signup_resume, bind.
    rewrite R, E1, F1. unfold ret at 1. cbv beta iota.
    rewrite R, E2, F2. unfold ret at 1. cbv beta iota.
    rewrite P1, P2. reflexivity.
  - rewrite V1_login_run. unfold second_only. cbn [fs file_users]. unfold login_on.
    by rewrite E1, (L e1 e2 _ _ _ N F1 E2).
  - unfold signup_race_late_first, V1.signup_begin, V1.signup_resume, bind.
    rewrite R, E1, F1. unfold ret at 1. cbv beta iota.
    rewrite R, E2, F2. unfold ret at 1. cbv beta iota.
    rewrite P1, P2. reflexivity.
  - rewrite V1_login_run. unfold first_only. cbn [fs file_users]. unfold login_on.
    rewrite E2, (L e2 e1 _ _ _ (not_eq_sym N) F2 E1). reflexivity.
Qed.

Lemma signup_race_loses_first_user_witness :
  let second_only :=
    {| fs := Some (UserArray ([] ++ [new_user "id6" other_signup
                                       (@bcrypt_hash demo_bcrypt "salt6" "pw6")]));
       session := session empty_store |} in
  let first_only :=
    {| fs := Some (UserArray ([] ++ [new_user "id1" lower_case_signup
                                       (@bcrypt_hash demo_bcrypt "salt1" "pw1")]));
       session := session empty_store |} in
  (@signup_race demo_bcrypt "id1" "salt1" lower_case_signup "id6" "salt6" other_signup
     empty_store = (Ok (ok_success, ok_success), second_only)
   /\ @V1.api_login demo_bcrypt lower_case_signup second_only
      = (Ok invalid_credentials, second_only))
  /\ (@signup_race_late_first demo_bcrypt "id1" "salt1" lower_case_signup "id6" "salt6"
        other_signup empty_store = (Ok (ok_success, ok_success), first_only)
   /\ @V1.api_login demo_bcrypt other_signup first_only
      = (Ok invalid_credentials, first_only)).
Proof.
  assert (N : "a@x.com" <> "b@x.com") by discriminate.
  apply (@signup_race_loses_first_user demo_bcrypt "id1" "salt1" "id6" "salt6"
           "a@x.com" "b@x.com" "pw1" "pw6" lower_case_signup other_signup empty_store []);
    try exact N; vm_compute; reflexivity.
Defined.

(** ** Signup, then [/api/me] *)

(** X19: right after a successful signup, on a file whose records all have an
    id, none of them the generated one, and for a caller without a session
    user id: in [server.js] [/api/me] is answered 401 "Not logged in" (the
    new user still has to log in); in the second revision it is answered with
    the new record, without its [password_hash] (the signup logged the user
    in). *)
Theorem signup_then_whoami `{Bcrypt}
    (uuid salt : string) (req_body : object) (w w1 : world) (users : list object) :
  uuid <> "" ->
  file_users (fs w) = Ok users ->
  find_by "id" (str uuid) users = None ->
  records_complete (fs w) ->
  session_user w = undefined ->
  (V1.api_signup uuid salt req_body w = (Ok ok_success, w1) ->
     V1.api_me w1 = (Ok not_logged_in, w1))
  /\ (V2.api_signup uuid salt req_body w = (Ok ok_success, w1) ->
     exists h, hash salt (req_body !! "password") = Ok h
               /\ V2.api_me w1 = (Ok (profile_of (new_user uuid req_body h)), w1)).
Proof.
  intros N R F C U. split; intros S.
  - destruct (V1_signup_shape uuid salt req_body w) as [D|[D|(us & h & R1 & _ & _ & D)]];
      rewrite D in S; try discriminate.
    injection S as <-. rewrite V1_me_run. cbn [fs file_users].
    change (session_user _) with (session_user w). rewrite U.
    rewrite find_by_id_undefined; [reflexivity|].
    apply Forall_app. split.
    + by apply (records_complete_have_ids w).
    + repeat constructor. apply new_user_complete.
  - destruct (V2_signup_shape uuid salt req_body w) as [D|[D|(us & h & R2 & _ & Hh & D)]];
      rewrite D in S; try discriminate.
    injection S as <-. exists h. split; [exact Hh|].
    rewrite V2_readAll_run, R in R2. injection R2 as <-.
    rewrite V2_me_run. cbn [fs file_users].
    change (session_user _) with (new_user uuid req_body h !! "id").
    rewrite new_user_id.
    assert (T : truthy (str uuid) = true)
      by (unfold truthy, str; by rewrite bool_decide_eq_false_2).
    rewrite T. cbn [negb].
    rewrite (find_by_app_new _ _ _ (new_user uuid req_body h) F); [reflexivity|].
    rewrite new_user_id. apply strict_eq_str_refl.
Qed.

Lemma signup_then_whoami_witness :
  let w1 := snd (@V1.api_signup demo_bcrypt "id1" "salt1" lower_case_signup empty_store) in
  let w2 := snd (@V2.api_signup demo_bcrypt "id1" "salt1" lower_case_signup empty_store) in
  V1.api_me w1 = (Ok not_logged_in, w1)
  /\ exists h, @hash demo_bcrypt "salt1" (lower_case_signup !! "password") = Ok h
               /\ V2.api_me w2 = (Ok (profile_of (new_user "id1" lower_case_signup h)), w2).
Proof.
  intros w1 w2.
  assert (N : "id1" <> "") by discriminate.
  assert (C : records_complete (fs empty_store)) by constructor.
  split.
  - refine (proj1 (@signup_then_whoami demo_bcrypt "id1" "salt1" lower_case_signup
                     empty_store w1 [] N _ _ C _) _);
      vm_compute; reflexivity.
  - refine (proj2 (@signup_then_whoami demo_bcrypt "id1" "salt1" lower_case_signup
                     empty_store w2 [] N _ _ C _) _);
      vm_compute; reflexivity.
Defined.
